(** * A REST facade over a document store: the product controller

    Shallow embedding of [src/controllers/productController.js].  The five
    Express handlers are written in a small state-and-exception monad, over
    the Firestore client functions they import ([addDoc], [getDocs],
    [getDoc], [updateDoc], [deleteDoc]).  The client library is not part of
    the controller: it is an interface here, and the facts about the
    handlers are proved for every implementation of it. *)

From stdpp Require Import base option list strings gmap fin_maps pretty.
From Stdlib Require Import QArith.

Local Open Scope string_scope.
Local Open Scope list_scope.
Local Open Scope Z_scope.

(** ** JSON values

    What [express.json()] puts in [req.body], what [doc.data()] returns and
    what [res.send] serialises.  Numbers are only carried around by the
    handlers, never computed with. *)

#[local] Set Warnings "-register-all".

Inductive json : Type :=
  | JNull
  | JBool (b : bool)
  | JNum (q : Q)
  | JStr (s : string)
  | JArr (items : list json)
  | JObj (fields : gmap string json).

(** The fields of one stored document: a JS object used as a map. *)
Abbreviation DocumentData := (gmap string json).

(** A thrown JS error; the handlers read only [error.message]. *)
Record Error : Type := mkError { message : string }.

(** ** The HTTP side: [req] and [res] *)

Record Params : Type := { params_id : string }.

Record Request : Type := { params : Params; body : json }.

Inductive Body : Type :=
  | Text (s : string)
  | Json (v : json).

(** One response written on the wire. *)
Record Response : Type := { code : Z; payload : Body }.

(** The [res] object: [res.status(n)] records the status and returns [res]. *)
Record ServerResponse : Type := { statusCode : Z }.

Definition res0 : ServerResponse := {| statusCode := 200 |}.

Definition status (res : ServerResponse) (n : Z) : ServerResponse :=
  {| statusCode := n |}.

(** ** References and snapshots of the Firestore client *)

Inductive FirebaseApp : Type := firebase.

Inductive Firestore : Type := getFirestore (app : FirebaseApp).

Record CollectionReference : Type := { coll_path : string }.

Record DocumentReference : Type := { ref_path : string; ref_id : string }.

Definition collection (_ : Firestore) (path : string) : CollectionReference :=
  {| coll_path := path |}.

Definition doc (_ : Firestore) (path id : string) : DocumentReference :=
  {| ref_path := path; ref_id := id |}.

(** What [getDoc] resolves to.  [snap_data] is what [data()] returns:
    [None] is [undefined], and [exists()] is false exactly then. *)
Record DocumentSnapshot : Type :=
  { snap_id : string; snap_data : option DocumentData }.

Definition snap_exists (d : DocumentSnapshot) : bool :=
  match snap_data d with
  | Some _ => true
  | None => false
  end.

(** One element of a query result: it always has data. *)
Record QueryDocumentSnapshot : Type :=
  { doc_id : string; doc_data : DocumentData }.

(** What [getDocs] resolves to; [forEach] visits [docs] in order. *)
Record QuerySnapshot : Type := { docs : list QueryDocumentSnapshot }.

Definition snapshot_empty (q : QuerySnapshot) : bool :=
  if docs q is [] then true else false.

(** ** The [Product] class *)

(** Modelled from the spec: [src/models/productModel.js] is missing; the spec
    gives a Product the members id, name, price, retailer and amountInStock,
    and the controller calls the constructor with five arguments in that
    order.  A member is [None] when the argument was [undefined]. *)
Record Product : Type := new_Product
  { product_id : string;
    name : option json;
    price : option json;
    retailer : option json;
    amountInStock : option json }.

(** How a Product goes out in a JSON body: one property per member, and
    [JSON.stringify] leaves out a property whose value is [undefined]. *)
Definition own_property (k : string) (v : option json) (o : DocumentData)
  : DocumentData :=
  match v with
  | Some x => <[k := x]> o
  | None => o
  end.

Definition Product_toJSON (p : Product) : json :=
  JObj (<["id" := JStr (product_id p)]>
         (own_property "name" (name p)
           (own_property "price" (price p)
             (own_property "retailer" (retailer p)
               (own_property "amountInStock" (amountInStock p) ∅))))).

(** [res.send] chooses the body by the run-time type of its argument: a
    string goes out as text, an object or an array as JSON. *)
Class Sendable (A : Type) := to_body : A → Body.

#[global] Instance Sendable_string : Sendable string := Text.
#[global] Instance Sendable_object : Sendable DocumentData :=
  λ o, Json (JObj o).
#[global] Instance Sendable_products : Sendable (list Product) :=
  λ arr, Json (JArr (Product_toJSON <$> arr)).
(** What [data()] returns; [res.send(undefined)] writes an empty body. *)
#[global] Instance Sendable_data : Sendable (option DocumentData) :=
  λ o, match o with
       | Some fields => to_body fields
       | None => Text ""
       end.

(** ** The handler monad

    A handler runs against the store behind the client ([backend]) and the
    connection it answers on ([sent]: the responses written so far).  A
    computation either returns or throws. *)

Inductive outcome (A : Type) : Type :=
  | Returned (a : A)
  | Thrown (e : Error).
Arguments Returned {A} a.
Arguments Thrown {A} e.

Record world (St : Type) : Type := World { backend : St; sent : list Response }.
Arguments World {St} backend sent.
Arguments backend {St} w.
Arguments sent {St} w.

Definition M (St A : Type) : Type := world St → outcome A * world St.

Definition run {St A} (m : M St A) (w : world St) : outcome A * world St := m w.

#[global] Instance M_ret {St} : MRet (M St) := λ A a w, (Returned a, w).

#[global] Instance M_bind {St} : MBind (M St) := λ A B f m w,
  match m w with
  | (Returned a, w') => f a w'
  | (Thrown e, w') => (Thrown e, w')
  end.

(** [try { m } catch (error) { h error }] *)
Definition try_catch {St A} (m : M St A) (h : Error → M St A) : M St A := λ w,
  match m w with
  | (Returned a, w') => (Returned a, w')
  | (Thrown e, w') => h e w'
  end.

Notation "'try' m 'catch' h" := (try_catch m h)
  (at level 10, m at level 200, h at level 200, only parsing).

(** [await p]: the value the promise resolves to, or its rejection thrown. *)
Definition await {St A} (p : M St A) : M St A := p.

(** [res.send(x)] writes one response with the recorded status. *)
Definition send {St A} `{Sendable A} (res : ServerResponse) (x : A) : M St unit :=
  λ w, (Returned tt,
        World (backend w) (sent w ++ [{| code := statusCode res; payload := to_body x |}])).

(** ** The Firestore client as an interface

    Each function takes the store from one state to the next and either
    resolves or rejects.  Nothing is assumed about when it rejects. *)

Class FirestoreClient (St : Type) : Type := {
  addDoc_st : CollectionReference → json → St → outcome DocumentReference * St;
  getDocs_st : CollectionReference → St → outcome QuerySnapshot * St;
  getDoc_st : DocumentReference → St → outcome DocumentSnapshot * St;
  updateDoc_st : DocumentReference → json → St → outcome unit * St;
  deleteDoc_st : DocumentReference → St → outcome unit * St
}.

Definition store_call {St A} (f : St → outcome A * St) : M St A := λ w,
  let '(r, s') := f (backend w) in (r, World s' (sent w)).

Section Controller.
Context {St : Type} `{!FirestoreClient St}.

Definition addDoc (c : CollectionReference) (data : json) : M St DocumentReference :=
  store_call (addDoc_st c data).
Definition getDocs (c : CollectionReference) : M St QuerySnapshot :=
  store_call (getDocs_st c).
Definition getDoc (r : DocumentReference) : M St DocumentSnapshot :=
  store_call (getDoc_st r).
Definition updateDoc (r : DocumentReference) (data : json) : M St unit :=
  store_call (updateDoc_st r data).
Definition deleteDoc (r : DocumentReference) : M St unit :=
  store_call (deleteDoc_st r).

Definition db : Firestore := getFirestore firebase.

(** [productArray.push(product)] *)
Definition push {A} (arr : list A) (x : A) : list A := arr ++ [x].

(** [products.forEach(f)] with [f] updating a local accumulator. *)
Definition forEach {A} (q : QuerySnapshot)
    (f : A → QueryDocumentSnapshot → A) (acc : A) : A :=
  foldl f acc (docs q).

Definition createProduct (req : Request) (res : ServerResponse) : M St unit :=
  try (
    let data := body req in
    _ ← await (addDoc (collection db "products") data);
    send (status res 200) "product created successfully"
  ) catch (λ error,
    send (status res 400) (message error)).

Definition getProducts (req : Request) (res : ServerResponse) : M St unit :=
  try (
    products ← await (getDocs (collection db "products"));
    let productArray : list Product := [] in
    if snapshot_empty products then
      send (status res 400) "No Products found"
    else
      let productArray :=
        forEach products (λ productArray doc,
          let product :=
            new_Product (doc_id doc)
                        (doc_data doc !! "name")
                        (doc_data doc !! "price")
                        (doc_data doc !! "retailer")
                        (doc_data doc !! "amountInStock") in
          push productArray product) productArray in
      send (status res 200) productArray
  ) catch (λ error,
    send (status res 400) (message error)).

Definition getProduct (req : Request) (res : ServerResponse) : M St unit :=
  try (
    let id := params_id (params req) in
    let product := doc db "products" id in
    data ← await (getDoc product);
    if snap_exists data then
      send (status res 200) (snap_data data)
    else
      send (status res 404) "product not found"
  ) catch (λ error,
    send (status res 400) (message error)).

Definition updateProduct (req : Request) (res : ServerResponse) : M St unit :=
  try (
    let id := params_id (params req) in
    let data := body req in
    let product := doc db "products" id in
    _ ← await (updateDoc product data);
    send (status res 200) "product updated successfully"
  ) catch (λ error,
    send (status res 400) (message error)).

Definition deleteProduct (req : Request) (res : ServerResponse) : M St unit :=
  try (
    let id := params_id (params req) in
    _ ← await (deleteDoc (doc db "products" id));
    send (status res 200) "product deleted successfully"
  ) catch (λ error,
    send (status res 400) (message error)).

End Controller.

(** ** The routes

    [src/index.js] mounts the product routes under [/api]. *)

Inductive operation : Type := Create | List | GetOne | Update | Delete.

(** The outcome of a handler that wrote one response [n], [b] and left the
    store in [s']. *)
Definition respond {St} (w : world St) (s' : St) (n : Z) (b : Body)
  : outcome unit * world St :=
  (Returned tt, World s' (sent w ++ [{| code := n; payload := b |}])).

(** The Product that [getProducts] builds from one document of the query. *)
Definition product_of (d : QueryDocumentSnapshot) : Product :=
  new_Product (doc_id d)
              (doc_data d !! "name")
              (doc_data d !! "price")
              (doc_data d !! "retailer")
              (doc_data d !! "amountInStock").

(** The member names of a Product other than its id. *)
Definition product_fields : gset string :=
  {[ "name"; "price"; "retailer"; "amountInStock" ]}.

Definition forget {St A} (r : outcome A * St) : outcome unit * St :=
  match r with
  | (Returned _, s) => (Returned tt, s)
  | (Thrown e, s) => (Thrown e, s)
  end.

Section Routes.
Context {St : Type} `{!FirestoreClient St}.

(** Modelled from the spec: [src/routes/productRoute.js] is missing; the spec
    binds create, list, get-one, update and delete to the five handlers of
    the controller. *)
Definition handler (op : operation) : Request → ServerResponse → M St unit :=
  match op with
  | Create => createProduct
  | List => getProducts
  | GetOne => getProduct
  | Update => updateProduct
  | Delete => deleteProduct
  end.

(** The one store call of each operation, its value left out. *)
Definition underlying_call (op : operation) (req : Request) (s : St)
  : outcome unit * St :=
  let id := params_id (params req) in
  match op with
  | Create => forget (addDoc_st (collection db "products") (body req) s)
  | List => forget (getDocs_st (collection db "products") s)
  | GetOne => forget (getDoc_st (doc db "products" id) s)
  | Update => forget (updateDoc_st (doc db "products" id) (body req) s)
  | Delete => forget (deleteDoc_st (doc db "products" id) s)
  end.

End Routes.

(** ** What a document store promises

    The controller is meant to run over any compliant document store: one
    whose state holds, per collection, a finite map from document ids to
    fields, and whose calls, when they resolve, have acted on that map as
    insert, read, read-all, merge and delete.  A call may still reject at
    any time; the laws speak only of calls that resolve. *)

Class CompliantStore (St : Type) `{!FirestoreClient St} : Type := {
  documents : St → string → gmap string DocumentData;
  addDoc_resolves c d s r s' :
    addDoc_st c (JObj d) s = (Returned r, s') →
    ref_path r = coll_path c ∧
    (ref_id r ∉ dom (documents s (coll_path c))) ∧
    documents s' (coll_path c) = <[ref_id r := d]> (documents s (coll_path c));
  getDocs_resolves c s q s' :
    getDocs_st c s = (Returned q, s') →
    (∀ p, documents s' p = documents s p) ∧
    (λ d, (doc_id d, doc_data d)) <$> docs q ≡ₚ map_to_list (documents s (coll_path c));
  getDoc_resolves r s d s' :
    getDoc_st r s = (Returned d, s') →
    (∀ p, documents s' p = documents s p) ∧
    snap_id d = ref_id r ∧
    snap_data d = documents s (ref_path r) !! ref_id r;
  updateDoc_resolves r d s s' old :
    updateDoc_st r (JObj d) s = (Returned tt, s') →
    documents s (ref_path r) !! ref_id r = Some old →
    documents s' (ref_path r) = <[ref_id r := d ∪ old]> (documents s (ref_path r));
  deleteDoc_resolves r s s' :
    deleteDoc_st r s = (Returned tt, s') →
    documents s' (ref_path r) = delete (ref_id r) (documents s (ref_path r))
}.

(** ** A reference store

    An in-memory store that follows the documented contract of the Firestore
    client: [addDoc] picks an id that is not in use, writes need an object,
    [updateDoc] merges top-level fields into an existing document and rejects
    when there is none, [deleteDoc] resolves whether or not the document was
    there.  [fault] is the condition of the backend: while it is set, every
    call rejects with it. *)

Module MemStore.

Record mem : Type := Mem
  { collections : gmap string (gmap string DocumentData);
    fault : option Error }.

Definition coll (s : mem) (p : string) : gmap string DocumentData :=
  default ∅ (collections s !! p).

Definition set_coll (s : mem) (p : string) (c : gmap string DocumentData) : mem :=
  Mem (<[p := c]> (collections s)) (fault s).

Definition invalid_data (fn : string) : Error :=
  mkError ("Function " +:+ fn +:+ "() called with invalid data. Data must be an object").

Definition no_document (r : DocumentReference) : Error :=
  mkError ("No document to update: " +:+ ref_path r +:+ "/" +:+ ref_id r).

(** Every call first meets the backend. *)
Definition guarded {A} (s : mem) (k : outcome A * mem) : outcome A * mem :=
  match fault s with
  | Some e => (Thrown e, s)
  | None => k
  end.

Definition mem_addDoc (c : CollectionReference) (data : json) (s : mem)
  : outcome DocumentReference * mem :=
  guarded s
    match data with
    | JObj d =>
        let i := fresh (dom (coll s (coll_path c))) in
        (Returned {| ref_path := coll_path c; ref_id := i |},
         set_coll s (coll_path c) (<[i := d]> (coll s (coll_path c))))
    | _ => (Thrown (invalid_data "addDoc"), s)
    end.

Definition mem_getDocs (c : CollectionReference) (s : mem)
  : outcome QuerySnapshot * mem :=
  guarded s
    (Returned {| docs := (λ kv, {| doc_id := kv.1; doc_data := kv.2 |})
                           <$> map_to_list (coll s (coll_path c)) |}, s).

Definition mem_getDoc (r : DocumentReference) (s : mem)
  : outcome DocumentSnapshot * mem :=
  guarded s
    (Returned {| snap_id := ref_id r;
                 snap_data := coll s (ref_path r) !! ref_id r |}, s).

Definition mem_updateDoc (r : DocumentReference) (data : json) (s : mem)
  : outcome unit * mem :=
  guarded s
    match data with
    | JObj d =>
        match coll s (ref_path r) !! ref_id r with
        | Some old =>
            (Returned tt,
             set_coll s (ref_path r) (<[ref_id r := d ∪ old]> (coll s (ref_path r))))
        | None => (Thrown (no_document r), s)
        end
    | _ => (Thrown (invalid_data "updateDoc"), s)
    end.

Definition mem_deleteDoc (r : DocumentReference) (s : mem) : outcome unit * mem :=
  guarded s
    (Returned tt, set_coll s (ref_path r) (delete (ref_id r) (coll s (ref_path r)))).

#[global] Instance client : FirestoreClient mem := {|
  addDoc_st := mem_addDoc;
  getDocs_st := mem_getDocs;
  getDoc_st := mem_getDoc;
  updateDoc_st := mem_updateDoc;
  deleteDoc_st := mem_deleteDoc
|}.

(** A store with no collections and a healthy backend. *)
Definition empty_store : mem := Mem ∅ None.

(** The same collections behind a backend that rejects with [e]. *)
Definition failing (e : Error) (s : mem) : mem := Mem (collections s) (Some e).

End MemStore.

(** ** Sample documents, requests and stores *)

Module Fixtures.
Import MemStore.

Definition widget : DocumentData :=
  <["name" := JStr "Widget"]>
    (<["price" := JNum (999 # 100)]>
      (<["retailer" := JStr "Acme"]>
        (<["amountInStock" := JNum (10 # 1)]> ∅))).

(** A document with a field that is not a member of a Product, and with
    three of the members missing. *)
Definition gadget : DocumentData :=
  <["name" := JStr "Gadget"]> (<["color" := JStr "red"]> ∅).


Definition new_price : DocumentData := <["price" := JNum (12 # 1)]> ∅.

Definition request (id : string) (b : json) : Request :=
  {| params := {| params_id := id |}; body := b |}.

Definition products_ref (id : string) : DocumentReference :=
  {| ref_path := "products"; ref_id := id |}.

Definition store_of (ds : gmap string DocumentData) : mem :=
  Mem (<["products" := ds]> ∅) None.

Definition fresh_world (s : mem) : world mem := World s [].

(** The store that holds the Widget under the id "0" and nothing else. *)
Definition widget_store : mem := store_of {["0" := widget]}.

Definition permission_denied : Error :=
  mkError "Missing or insufficient permissions.".

(** A collection with the Widget and the Gadget. *)
Definition two_products : gmap string DocumentData :=
  <["0" := widget]> (<["g1" := gadget]> ∅).

(** The query result of the reference store for a collection. *)
Definition snapshot_of (ds : gmap string DocumentData) : QuerySnapshot :=
  {| docs := (λ kv, {| doc_id := kv.1; doc_data := kv.2 |}) <$> map_to_list ds |}.

End Fixtures.

(** * Properties *)

(** ** What running each handler amounts to *)

Section HandlerFacts.
Context {St : Type} `{!FirestoreClient St}.

Lemma forEach_push {A} (f : QueryDocumentSnapshot → A) (l : list QueryDocumentSnapshot)
    (acc : list A) :
  foldl (λ arr d, push arr (f d)) acc l = acc ++ (f <$> l).
Proof.
  revert acc. induction l as [|d l IH]; intros acc; simpl.
  - by rewrite app_nil_r.
  - rewrite IH. unfold push. by rewrite <- app_assoc.
Qed.

Ltac step_handler :=
  unfold run, try_catch, await, mbind, M_bind, store_call, send; simpl.

Lemma run_createProduct req res w :
  run (createProduct req res) w =
  match addDoc_st (collection db "products") (body req) (backend w) with
  | (Returned _, s') => respond w s' 200 (Text "product created successfully")
  | (Thrown e, s') => respond w s' 400 (Text (message e))
  end.
Proof.
  unfold createProduct, addDoc. step_handler.
  by destruct (addDoc_st _ _ _) as [[r|e] s'].
Qed.

Lemma run_getProducts req res w :
  run (getProducts req res) w =
  match getDocs_st (collection db "products") (backend w) with
  | (Returned q, s') =>
      if snapshot_empty q then respond w s' 400 (Text "No Products found")
      else respond w s' 200 (to_body (product_of <$> docs q))
  | (Thrown e, s') => respond w s' 400 (Text (message e))
  end.
Proof.
  unfold getProducts, getDocs. step_handler.
  destruct (getDocs_st _ _) as [[q|e] s']; [|done].
  destruct (snapshot_empty q); [done|].
  unfold forEach. by rewrite (forEach_push product_of).
Qed.

Lemma run_getProduct req res w :
  run (getProduct req res) w =
  match getDoc_st (doc db "products" (params_id (params req))) (backend w) with
  | (Returned d, s') =>
      match snap_data d with
      | Some fields => respond w s' 200 (Json (JObj fields))
      | None => respond w s' 404 (Text "product not found")
      end
  | (Thrown e, s') => respond w s' 400 (Text (message e))
  end.
Proof.
  unfold getProduct, getDoc. step_handler.
  destruct (getDoc_st _ _) as [[d|e] s']; [|done].
  unfold snap_exists. by destruct (snap_data d).
Qed.

Lemma run_updateProduct req res w :
  run (updateProduct req res) w =
  match updateDoc_st (doc db "products" (params_id (params req))) (body req) (backend w) with
  | (Returned _, s') => respond w s' 200 (Text "product updated successfully")
  | (Thrown e, s') => respond w s' 400 (Text (message e))
  end.
Proof.
  unfold updateProduct, updateDoc. step_handler.
  by destruct (updateDoc_st _ _ _) as [[r|e] s'].
Qed.

Lemma run_deleteProduct req res w :
  run (deleteProduct req res) w =
  match deleteDoc_st (doc db "products" (params_id (params req))) (backend w) with
  | (Returned _, s') => respond w s' 200 (Text "product deleted successfully")
  | (Thrown e, s') => respond w s' 400 (Text (message e))
  end.
Proof.
  unfold deleteProduct, deleteDoc. step_handler.
  by destruct (deleteDoc_st _ _) as [[r|e] s'].
Qed.

Lemma forget_Thrown {A} (r : outcome A * St) e s' :
  forget r = (Thrown e, s') → r = (Thrown e, s').
Proof. destruct r as [[a|e0] s0]; simpl; congruence. Qed.

(** Every handler returns, having written exactly one response. *)
Lemma handler_returns op req res w :
  ∃ s' r, run (handler op req res) w = (Returned tt, World s' (sent w ++ [r])).
Proof.
  destruct op; simpl.
  - rewrite run_createProduct.
    destruct (addDoc_st _ _ _) as [[?|?] ?]; unfold respond; eauto.
  - rewrite run_getProducts.
    destruct (getDocs_st _ _) as [[q|?] ?]; [destruct (snapshot_empty q)|];
      unfold respond; eauto.
  - rewrite run_getProduct.
    destruct (getDoc_st _ _) as [[d|?] ?]; [destruct (snap_data d)|];
      unfold respond; eauto.
  - rewrite run_updateProduct.
    destruct (updateDoc_st _ _ _) as [[?|?] ?]; unfold respond; eauto.
  - rewrite run_deleteProduct.
    destruct (deleteDoc_st _ _) as [[?|?] ?]; unfold respond; eauto.
Qed.

End HandlerFacts.

(** ** The reference store is compliant *)

Module MemStoreFacts.
Import MemStore.

Lemma coll_set_coll s p c : coll (set_coll s p c) p = c.
Proof. unfold coll, set_coll; simpl. by rewrite lookup_insert_eq. Qed.

Lemma guarded_Returned {A} s (k : outcome A * mem) a s' :
  guarded s k = (Returned a, s') → k = (Returned a, s').
Proof. unfold guarded. by destruct (fault s). Qed.

#[global] Instance compliant : CompliantStore mem.
Proof.
  refine {| documents := coll |}.
  - intros c d s r s' Hc. apply guarded_Returned in Hc.
    injection Hc as <- <-. simpl. split; [done|]. split.
    + apply is_fresh.
    + apply coll_set_coll.
  - intros c s q s' Hc. apply guarded_Returned in Hc.
    injection Hc as <- <-. split; [done|]. simpl.
    rewrite <- list_fmap_compose.
    rewrite (list_fmap_ext _ id (map_to_list (coll s (coll_path c))));
      [by rewrite list_fmap_id | by intros ? []].
  - intros r s d s' Hc. apply guarded_Returned in Hc.
    by injection Hc as <- <-.
  - intros r d s s' old Hc Hold. apply guarded_Returned in Hc.
    rewrite Hold in Hc. injection Hc as <-. apply coll_set_coll.
  - intros r s s' Hc. apply guarded_Returned in Hc.
    injection Hc as <-. apply coll_set_coll.
Defined.

End MemStoreFacts.

(** ** The JSON form of a Product *)

Lemma lookup_own_property k v o j :
  own_property k v o !! j =
  if decide (k = j) then (if v is Some x then Some x else o !! j) else o !! j.
Proof.
  unfold own_property. destruct v as [x|]; case_decide; subst;
    by rewrite ?lookup_insert_eq, ?lookup_insert_ne.
Qed.

Lemma lookup_filter_keys (X : gset string) (m : DocumentData) j :
  filter (λ kv, kv.1 ∈ X) m !! j = if decide (j ∈ X) then m !! j else None.
Proof.
  rewrite map_lookup_filter.
  destruct (m !! j) as [x|]; simpl; [|by case_decide].
  destruct (decide (j ∈ X)) as [Hin|Hout].
  - by rewrite option_guard_True.
  - by rewrite option_guard_False.
Qed.

(** The JSON object of a listed Product is the document id under "id" and,
    of the document's fields, those that are members of a Product. *)
Lemma Product_toJSON_product_of (e : QueryDocumentSnapshot) :
  Product_toJSON (product_of e) =
  JObj (<["id" := JStr (doc_id e)]>
         (filter (λ kv, kv.1 ∈ product_fields) (doc_data e))).
Proof.
  unfold Product_toJSON, product_of; simpl. f_equal. apply map_eq; intros j.
  destruct (decide ("id" = j)) as [<-|Hid]; [by rewrite !lookup_insert_eq|].
  rewrite !lookup_insert_ne by done.
  rewrite !lookup_own_property, lookup_empty, lookup_filter_keys.
  unfold product_fields.
  repeat match goal with
         | |- context [decide (?a = ?b :> string)] =>
             destruct (decide (a = b)); simplify_eq
         end.
  1-4: rewrite decide_True by set_solver; by destruct (_ !! _).
  rewrite decide_False; [done|].
  rewrite !elem_of_union, !elem_of_singleton. intuition congruence.
Qed.

Lemma filter_product_fields_id (P : DocumentData) :
  dom P ⊆ product_fields → filter (λ kv, kv.1 ∈ product_fields) P = P.
Proof.
  intros Hdom. apply map_filter_id. intros k v Hk. simpl.
  apply Hdom, elem_of_dom. eauto.
Qed.

(** ** Facts that hold over every client *)

Section AnyClient.
Context {St : Type} `{!FirestoreClient St}.

(** C2. Whatever the operation, when its store call rejects with an error
    the handler returns normally, having written the single response 400
    with the error's message as text; and whatever the store does, the
    handler returns and never throws. *)
Theorem store_failure_is_400 (op : operation) (req : Request)
    (res : ServerResponse) (w : world St) :
  (∃ w', run (handler op req res) w = (Returned tt, w')) ∧
  (∀ e s', underlying_call op req (backend w) = (Thrown e, s') →
     run (handler op req res) w = respond w s' 400 (Text (message e))).
Proof.
  split.
  - destruct (handler_returns op req res w) as (s' & r & ->). eauto.
  - intros e s' Hc. destruct op; simpl in *; apply forget_Thrown in Hc.
    + by rewrite run_createProduct, Hc.
    + by rewrite run_getProducts, Hc.
    + by rewrite run_getProduct, Hc.
    + by rewrite run_updateProduct, Hc.
    + by rewrite run_deleteProduct, Hc.
Qed.


End AnyClient.

(** ** Facts that hold over every compliant store *)

Section Compliant.
Context {St : Type} `{!FirestoreClient St} `{!CompliantStore St}.

(** The query lists exactly the stored documents. *)
Lemma snapshot_of_empty c s q s' :
  getDocs_st c s = (Returned q, s') →
  documents s (coll_path c) = ∅ → docs q = [].
Proof.
  intros Hq He. apply getDocs_resolves in Hq as [_ Hp].
  rewrite He, map_to_list_empty in Hp.
  apply Permutation_nil_r in Hp. by apply fmap_nil_inv in Hp.
Qed.

Lemma snapshot_of_nonempty c s q s' :
  getDocs_st c s = (Returned q, s') →
  documents s (coll_path c) ≠ ∅ → snapshot_empty q = false.
Proof.
  intros Hq Hne. apply getDocs_resolves in Hq as [_ Hp].
  unfold snapshot_empty. destruct (docs q); [|done].
  simpl in Hp. symmetry in Hp. apply Permutation_nil_r in Hp.
  by apply map_to_list_empty_iff in Hp.
Qed.

Lemma snapshot_has_document c s q s' i d :
  getDocs_st c s = (Returned q, s') →
  documents s (coll_path c) !! i = Some d →
  ∃ e, e ∈ docs q ∧ doc_id e = i ∧ doc_data e = d.
Proof.
  intros Hq Hd. apply getDocs_resolves in Hq as [_ Hp].
  apply elem_of_map_to_list in Hd. rewrite <- Hp in Hd.
  apply list_elem_of_fmap in Hd as (e & Heq & He).
  exists e. by injection Heq as -> ->.
Qed.

(** C1 (as the code has it). Listing an empty products collection answers
    400 with the text "No Products found". *)
Theorem list_of_empty_collection (req : Request) (res : ServerResponse)
    (w : world St) (q : QuerySnapshot) (s' : St) :
  documents (backend w) "products" = ∅ →
  getDocs_st (collection db "products") (backend w) = (Returned q, s') →
  run (getProducts req res) w = respond w s' 400 (Text "No Products found").
Proof.
  intros He Hq. rewrite run_getProducts, Hq.
  unfold snapshot_empty. by rewrite (snapshot_of_empty _ _ _ _ Hq He).
Qed.

(** C3. When the read resolves: if the products collection holds a document
    under the id, get-one answers 200 with that document's stored fields as
    the JSON body, as they are; if it holds none, get-one answers 404 with
    the text "product not found". *)
Theorem get_one_found_or_404 (req : Request) (res : ServerResponse)
    (w : world St) (snap : DocumentSnapshot) (s' : St) :
  getDoc_st (doc db "products" (params_id (params req))) (backend w)
    = (Returned snap, s') →
  (∀ fields, documents (backend w) "products" !! params_id (params req) = Some fields →
     run (getProduct req res) w = respond w s' 200 (Json (JObj fields))) ∧
  (documents (backend w) "products" !! params_id (params req) = None →
     run (getProduct req res) w = respond w s' 404 (Text "product not found")).
Proof.
  intros Hg. rewrite run_getProduct, Hg.
  apply getDoc_resolves in Hg as (_ & _ & ->). simpl.
  split; [intros fields ->|intros ->]; done.
Qed.

(** C9. Listing a products collection that is not empty answers 200 with a
    JSON array holding, for each document the query visits and in that
    order, the Product built from the document's id and its name, price,
    retailer and amountInStock; the query visits each stored document
    once. *)
Theorem list_of_nonempty_collection (req : Request) (res : ServerResponse)
    (w : world St) (q : QuerySnapshot) (s' : St) :
  documents (backend w) "products" ≠ ∅ →
  getDocs_st (collection db "products") (backend w) = (Returned q, s') →
  run (getProducts req res) w =
    respond w s' 200 (Json (JArr (Product_toJSON <$> (product_of <$> docs q)))) ∧
  (λ d, (doc_id d, doc_data d)) <$> docs q
    ≡ₚ map_to_list (documents (backend w) "products") ∧
  length (product_of <$> docs q) = size (documents (backend w) "products").
Proof.
  intros Hne Hq. rewrite run_getProducts, Hq.
  rewrite (snapshot_of_nonempty _ _ _ _ Hq Hne).
  apply getDocs_resolves in Hq as [_ Hp]. simpl in Hp.
  split; [done|]. split; [done|].
  rewrite length_fmap, <- (length_fmap (λ d, (doc_id d, doc_data d))), Hp.
  by rewrite length_map_to_list.
Qed.

(** C4. Creating a product from an object [P] and then listing: the create
    answers 200, and the list answers 200 with an array that holds the
    Product built from [P]'s fields under the id the store returned from
    [addDoc], an id that was not in the collection before.  When [P] has no
    fields besides the four product fields, that entry's JSON object is [P]
    with the id added. *)
Theorem create_then_list (P : DocumentData) (req req' : Request)
    (res res' : ServerResponse) (w : world St)
    (r : DocumentReference) (s1 : St) (q : QuerySnapshot) (s2 : St) :
  body req = JObj P →
  addDoc_st (collection db "products") (JObj P) (backend w) = (Returned r, s1) →
  getDocs_st (collection db "products") s1 = (Returned q, s2) →
  let w1 := World s1 (sent w ++ [{| code := 200;
                                    payload := Text "product created successfully" |}]) in
  run (createProduct req res) w = (Returned tt, w1) ∧
  run (getProducts req' res') w1 =
    respond w1 s2 200 (Json (JArr (Product_toJSON <$> (product_of <$> docs q)))) ∧
  new_Product (ref_id r) (P !! "name") (P !! "price") (P !! "retailer")
              (P !! "amountInStock") ∈ product_of <$> docs q ∧
  (ref_id r ∉ dom (documents (backend w) "products")) ∧
  (dom P ⊆ product_fields →
   JObj (<["id" := JStr (ref_id r)]> P) ∈ Product_toJSON <$> (product_of <$> docs q)).
Proof.
  intros Hb Ha Hq w1.
  destruct (addDoc_resolves _ _ _ _ _ Ha) as (_ & Hfresh & Hdocs). simpl in *.
  assert (Hnew : documents s1 "products" !! ref_id r = Some P)
    by (by rewrite Hdocs, lookup_insert_eq).
  destruct (snapshot_has_document _ _ _ _ _ _ Hq Hnew) as (e & He & Hid & Hdata).
  assert (Hin : product_of e ∈ product_of <$> docs q)
    by (apply list_elem_of_fmap; eauto).
  split; [by rewrite run_createProduct, Hb, Ha|].
  split.
  { rewrite run_getProducts. simpl. rewrite Hq.
    rewrite (snapshot_of_nonempty _ _ _ _ Hq); [done|].
    simpl. intros Hempty. by rewrite Hempty in Hnew. }
  split; [by unfold product_of in Hin; rewrite Hid, Hdata in Hin|].
  split; [done|].
  intros Hdom. apply list_elem_of_fmap. exists (product_of e). split; [|done].
  by rewrite Product_toJSON_product_of, Hid, Hdata, filter_product_fields_id.
Qed.

(** C5. Updating an existing document with an object [partial] and then
    reading it: the update answers 200, and get-one answers 200 with a body
    in which every field of [partial] has its new value and every other
    field has the value it had before. *)
Theorem update_then_get_one (partial old : DocumentData) (req req' : Request)
    (res res' : ServerResponse) (w : world St)
    (s1 : St) (snap : DocumentSnapshot) (s2 : St) :
  let id := params_id (params req) in
  body req = JObj partial →
  params_id (params req') = id →
  documents (backend w) "products" !! id = Some old →
  updateDoc_st (doc db "products" id) (JObj partial) (backend w) = (Returned tt, s1) →
  getDoc_st (doc db "products" id) s1 = (Returned snap, s2) →
  let w1 := World s1 (sent w ++ [{| code := 200;
                                    payload := Text "product updated successfully" |}]) in
  run (updateProduct req res) w = (Returned tt, w1) ∧
  ∃ merged : DocumentData,
    run (getProduct req' res') w1 = respond w1 s2 200 (Json (JObj merged)) ∧
    (∀ k v, partial !! k = Some v → merged !! k = Some v) ∧
    (∀ k, partial !! k = None → merged !! k = old !! k).
Proof.
  intros id Hb Hid Hold Hu Hg w1. subst id.
  pose proof (updateDoc_resolves _ _ _ _ _ Hu Hold) as Hdocs. simpl in Hdocs.
  split; [by rewrite run_updateProduct, Hb, Hu|].
  exists (partial ∪ old). split.
  - rewrite run_getProduct, Hid. simpl. rewrite Hg.
    apply getDoc_resolves in Hg as (_ & _ & ->). simpl.
    by rewrite Hdocs, lookup_insert_eq.
  - split.
    + intros k v Hk. by apply lookup_union_Some_l.
    + intros k Hk. by apply lookup_union_r.
Qed.


(** C8. When the delete call resolves, the handler answers 200 "product
    deleted successfully", whether or not a document was stored under the
    id; it is gone afterwards, and when there was none the collection is
    unchanged. *)
Theorem delete_answers_200 (req : Request) (res : ServerResponse)
    (w : world St) (s' : St) :
  let id := params_id (params req) in
  deleteDoc_st (doc db "products" id) (backend w) = (Returned tt, s') →
  run (deleteProduct req res) w =
    respond w s' 200 (Text "product deleted successfully") ∧
  documents s' "products" !! id = None ∧
  (documents (backend w) "products" !! id = None →
   documents s' "products" = documents (backend w) "products").
Proof.
  intros id Hd. subst id. split; [by rewrite run_deleteProduct, Hd|].
  apply deleteDoc_resolves in Hd. simpl in Hd. rewrite Hd.
  split; [apply lookup_delete_eq|]. intros Hnone. by apply delete_id.
Qed.

(** C10. For a stored document, the list's array has an entry whose JSON
    object holds the document id under "id" and, of the stored fields, only
    name, price, retailer and amountInStock (each present exactly when
    stored); get-one for the same id returns every stored field. *)
Theorem list_drops_fields_get_one_keeps (req req' : Request)
    (res res' : ServerResponse) (w : world St) (i : string) (d : DocumentData)
    (q : QuerySnapshot) (s1 : St) (snap : DocumentSnapshot) (s2 : St) :
  documents (backend w) "products" !! i = Some d →
  params_id (params req') = i →
  getDocs_st (collection db "products") (backend w) = (Returned q, s1) →
  getDoc_st (doc db "products" i) (backend w) = (Returned snap, s2) →
  let entry : DocumentData :=
    <["id" := JStr i]> (filter (λ kv, kv.1 ∈ product_fields) d) in
  run (getProducts req res) w =
    respond w s1 200 (Json (JArr (Product_toJSON <$> (product_of <$> docs q)))) ∧
  JObj entry ∈ Product_toJSON <$> (product_of <$> docs q) ∧
  (∀ k, k ∈ product_fields → k ≠ "id" → entry !! k = d !! k) ∧
  (∀ k, k ∉ product_fields → k ≠ "id" → entry !! k = None) ∧
  run (getProduct req' res') w = respond w s2 200 (Json (JObj d)).
Proof.
  intros Hd Hid Hq Hg entry.
  destruct (snapshot_has_document _ _ _ _ _ _ Hq Hd) as (e & He & Hei & Hed).
  split.
  { rewrite run_getProducts, Hq.
    rewrite (snapshot_of_nonempty _ _ _ _ Hq); [done|].
    simpl. intros Hempty. by rewrite Hempty in Hd. }
  split.
  { apply list_elem_of_fmap. exists (product_of e).
    split; [by rewrite Product_toJSON_product_of, Hei, Hed|].
    apply list_elem_of_fmap; eauto. }
  split.
  { intros k Hk Hne. unfold entry.
    by rewrite lookup_insert_ne, lookup_filter_keys, decide_True. }
  split.
  { intros k Hk Hne. unfold entry.
    by rewrite lookup_insert_ne, lookup_filter_keys, decide_False. }
  rewrite run_getProduct, Hid, Hg.
  apply getDoc_resolves in Hg as (_ & _ & ->). simpl. by rewrite Hd.
Qed.

End Compliant.

(** ** Concrete runs on the reference store *)

Module Runs.
Import MemStore Fixtures.

(** The Widget has the four product fields and no other. *)
Example widget_fields : dom widget = product_fields.
Proof.
  unfold widget, product_fields. rewrite !dom_insert_L, dom_empty_L. set_solver.
Qed.

(** The reference store gives out "0" as the first id. *)
Example first_id : fresh (dom (coll empty_store "products")) = "0".
Proof. by vm_compute. Qed.

(** On a store whose update needs an existing document, as the Firestore
    client documents for [updateDoc], updating an absent id is answered 400
    with the store's message and nothing is created. *)
Example update_absent_on_reference_store :
  run (updateProduct (request "doesnotexist" (JObj new_price)) res0)
      (fresh_world empty_store)
  = respond (fresh_world empty_store) empty_store 400
      (Text "No document to update: products/doesnotexist").
Proof. by vm_compute. Qed.

(** Listing the empty store. *)
Lemma list_of_empty_collection_witness :
  run (getProducts (request "" JNull) res0) (fresh_world empty_store)
  = respond (fresh_world empty_store) empty_store 400 (Text "No Products found").
Proof.
  apply (list_of_empty_collection (request "" JNull) res0
           (fresh_world empty_store) {| docs := [] |} empty_store);
    vm_compute; reflexivity.
Defined.

(** The products collection is empty, the list answers 400 "No Products
    found", and that is not the response 400 "no products found". *)
Lemma list_of_empty_collection_body_differs :
  documents (backend (fresh_world empty_store)) "products" = ∅ ∧
  run (getProducts (request "" JNull) res0) (fresh_world empty_store)
  = respond (fresh_world empty_store) empty_store 400 (Text "No Products found") ∧
  run (getProducts (request "" JNull) res0) (fresh_world empty_store)
  ≠ respond (fresh_world empty_store) empty_store 400 (Text "no products found").
Proof.
  split; [by vm_compute|]. rewrite run_getProducts.
  split; [by vm_compute|]. vm_compute. intros [=].
Qed.

(** A rejected query behind a backend that denies access. *)
Lemma store_failure_is_400_witness :
  run (handler List (request "" JNull) res0)
      (fresh_world (failing permission_denied widget_store))
  = respond (fresh_world (failing permission_denied widget_store))
      (failing permission_denied widget_store) 400
      (Text "Missing or insufficient permissions.").
Proof.
  apply (proj2 (store_failure_is_400 List (request "" JNull) res0
                  (fresh_world (failing permission_denied widget_store)))
               permission_denied).
  vm_compute; reflexivity.
Defined.

(** Reading a stored id and an unknown one. *)
Lemma get_one_found_or_404_witness :
  run (getProduct (request "0" JNull) res0) (fresh_world widget_store)
  = respond (fresh_world widget_store) widget_store
      200 (Json (JObj widget)) ∧
  run (getProduct (request "doesnotexist" JNull) res0)
      (fresh_world widget_store)
  = respond (fresh_world widget_store) widget_store
      404 (Text "product not found").
Proof.
  split.
  - refine (proj1 (get_one_found_or_404 (request "0" JNull) res0
                     (fresh_world widget_store)
                     {| snap_id := "0"; snap_data := Some widget |}
                     widget_store _)
                  widget _);
      vm_compute; reflexivity.
  - refine (proj2 (get_one_found_or_404 (request "doesnotexist" JNull) res0
                     (fresh_world widget_store)
                     {| snap_id := "doesnotexist"; snap_data := None |}
                     widget_store _) _);
      vm_compute; reflexivity.
Defined.

(** Creating the Widget in the empty store, then listing. *)
Lemma create_then_list_witness :
  let w1 := World widget_store
                  [{| code := 200; payload := Text "product created successfully" |}] in
  let q := {| docs := [{| doc_id := "0"; doc_data := widget |}] |} in
  run (createProduct (request "" (JObj widget)) res0) (fresh_world empty_store)
    = (Returned tt, w1) ∧
  run (getProducts (request "" JNull) res0) w1 =
    respond w1 widget_store 200
      (Json (JArr (Product_toJSON <$> (product_of <$> docs q)))) ∧
  new_Product "0" (widget !! "name") (widget !! "price") (widget !! "retailer")
              (widget !! "amountInStock") ∈ product_of <$> docs q ∧
  ("0" ∉ dom (documents empty_store "products")) ∧
  (dom widget ⊆ product_fields →
   JObj (<["id" := JStr "0"]> widget) ∈ Product_toJSON <$> (product_of <$> docs q)).
Proof.
  apply (create_then_list widget (request "" (JObj widget)) (request "" JNull)
           res0 res0 (fresh_world empty_store) (products_ref "0")
           widget_store
           {| docs := [{| doc_id := "0"; doc_data := widget |}] |}
           widget_store);
    vm_compute; reflexivity.
Defined.

(** Changing the Widget's price, then reading it. *)
Lemma update_then_get_one_witness :
  let w1 := World (store_of {["0" := new_price ∪ widget]})
                  [{| code := 200; payload := Text "product updated successfully" |}] in
  run (updateProduct (request "0" (JObj new_price)) res0)
      (fresh_world widget_store) = (Returned tt, w1) ∧
  ∃ merged : DocumentData,
    run (getProduct (request "0" JNull) res0) w1 =
      respond w1 (store_of {["0" := new_price ∪ widget]}) 200 (Json (JObj merged)) ∧
    (∀ k v, new_price !! k = Some v → merged !! k = Some v) ∧
    (∀ k, new_price !! k = None → merged !! k = widget !! k).
Proof.
  apply (update_then_get_one new_price widget (request "0" (JObj new_price))
           (request "0" JNull) res0 res0 (fresh_world widget_store)
           (store_of {["0" := new_price ∪ widget]})
           {| snap_id := "0"; snap_data := Some (new_price ∪ widget) |}
           (store_of {["0" := new_price ∪ widget]}));
    vm_compute; reflexivity.
Defined.


(** Deleting an id that was never stored. *)
Lemma delete_answers_200_witness :
  run (deleteProduct (request "doesnotexist" JNull) res0) (fresh_world empty_store)
  = respond (fresh_world empty_store) (store_of ∅) 200
      (Text "product deleted successfully") ∧
  documents (store_of ∅) "products" !! "doesnotexist" = None ∧
  (documents empty_store "products" !! "doesnotexist" = None →
   documents (store_of ∅) "products" = documents empty_store "products").
Proof.
  apply (delete_answers_200 (request "doesnotexist" JNull) res0
           (fresh_world empty_store) (store_of ∅));
    vm_compute; reflexivity.
Defined.

(** Listing a store that holds the Widget. *)
Lemma list_of_nonempty_collection_witness :
  let s := widget_store in
  let q := {| docs := [{| doc_id := "0"; doc_data := widget |}] |} in
  run (getProducts (request "" JNull) res0) (fresh_world s) =
    respond (fresh_world s) s 200
      (Json (JArr (Product_toJSON <$> (product_of <$> docs q)))) ∧
  (λ d, (doc_id d, doc_data d)) <$> docs q ≡ₚ map_to_list (documents s "products") ∧
  length (product_of <$> docs q) = size (documents s "products").
Proof.
  apply (list_of_nonempty_collection (request "" JNull) res0
           (fresh_world widget_store)
           {| docs := [{| doc_id := "0"; doc_data := widget |}] |}
           widget_store).
  - vm_compute. intros [=].
  - vm_compute; reflexivity.
Defined.

(** The Gadget has a colour: the list leaves it out, get-one returns it. *)
Lemma list_drops_fields_get_one_keeps_witness :
  let s := store_of {["g1" := gadget]} in
  let q := {| docs := [{| doc_id := "g1"; doc_data := gadget |}] |} in
  let entry : DocumentData :=
    <["id" := JStr "g1"]> (filter (λ kv, kv.1 ∈ product_fields) gadget) in
  run (getProducts (request "" JNull) res0) (fresh_world s) =
    respond (fresh_world s) s 200
      (Json (JArr (Product_toJSON <$> (product_of <$> docs q)))) ∧
  JObj entry ∈ Product_toJSON <$> (product_of <$> docs q) ∧
  (∀ k, k ∈ product_fields → k ≠ "id" → entry !! k = gadget !! k) ∧
  (∀ k, k ∉ product_fields → k ≠ "id" → entry !! k = None) ∧
  run (getProduct (request "g1" JNull) res0) (fresh_world s) =
    respond (fresh_world s) s 200 (Json (JObj gadget)).
Proof.
  apply (list_drops_fields_get_one_keeps (request "" JNull) (request "g1" JNull)
           res0 res0 (fresh_world (store_of {["g1" := gadget]})) "g1" gadget
           {| docs := [{| doc_id := "g1"; doc_data := gadget |}] |}
           (store_of {["g1" := gadget]})
           {| snap_id := "g1"; snap_data := Some gadget |}
           (store_of {["g1" := gadget]}));
    vm_compute; reflexivity.
Defined.

(** What the two answers for the Gadget look like. *)
Example gadget_entry_has_no_color :
  (<["id" := JStr "g1"]> (filter (λ kv, kv.1 ∈ product_fields) gadget) : DocumentData)
  = <["id" := JStr "g1"]> (<["name" := JStr "Gadget"]> ∅) ∧
  gadget !! "color" = Some (JStr "red").
Proof. split; by vm_compute. Qed.

End Runs.

(** * Further properties of the handlers *)

(** ** Over every client *)

Section ResponseShape.
Context {St : Type} `{!FirestoreClient St}.

Lemma forget_Returned {A} (r : outcome A * St) s' :
  forget r = (Returned tt, s') → ∃ a, r = (Returned a, s').
Proof. destruct r as [[a|e] s0]; simpl; [|done]. intros [= <-]. eauto. Qed.

(** X1. Whatever the store does, a handler writes exactly one response
    after those already written and returns.  The status is 200, 400 or
    404; 404 comes only from get-one and carries "product not found"; 200 is
    only sent after the store call resolved; and every response that is not
    a 200 has a text body. *)
Theorem one_response_of_known_shape (op : operation) (req : Request)
    (res : ServerResponse) (w : world St) :
  ∃ s' r,
    run (handler op req res) w = (Returned tt, World s' (sent w ++ [r])) ∧
    (code r = 200 ∨ code r = 400 ∨ code r = 404) ∧
    (code r = 404 → op = GetOne ∧ payload r = Text "product not found") ∧
    (code r = 200 → ∃ s'', underlying_call op req (backend w) = (Returned tt, s'')) ∧
    (code r ≠ 200 → ∃ t, payload r = Text t).
Proof.
  destruct op; simpl.
  - rewrite run_createProduct.
    destruct (addDoc_st _ _ _) as [[?|?] ?]; unfold respond;
      eexists _, _; (split; [reflexivity|]); simpl;
      repeat split; eauto; done.
  - rewrite run_getProducts.
    destruct (getDocs_st _ _) as [[q|?] ?]; [destruct (snapshot_empty q)|];
      unfold respond; eexists _, _; (split; [reflexivity|]); simpl;
      repeat split; eauto; done.
  - rewrite run_getProduct.
    destruct (getDoc_st _ _) as [[d|?] ?]; [destruct (snap_data d)|];
      unfold respond; eexists _, _; (split; [reflexivity|]); simpl;
      repeat split; eauto; done.
  - rewrite run_updateProduct.
    destruct (updateDoc_st _ _ _) as [[?|?] ?]; unfold respond;
      eexists _, _; (split; [reflexivity|]); simpl;
      repeat split; eauto; done.
  - rewrite run_deleteProduct.
    destruct (deleteDoc_st _ _) as [[?|?] ?]; unfold respond;
      eexists _, _; (split; [reflexivity|]); simpl;
      repeat split; eauto; done.
Qed.

(** X2. A handler leaves the store exactly as its one store call left it:
    there is no second call and no other access, on the success path and on
    the failure path alike. *)
Theorem store_after_handler (op : operation) (req : Request)
    (res : ServerResponse) (w : world St) :
  backend (run (handler op req res) w).2 =
  (underlying_call op req (backend w)).2.
Proof.
  destruct op; simpl.
  - rewrite run_createProduct. by destruct (addDoc_st _ _ _) as [[?|?] ?].
  - rewrite run_getProducts.
    by destruct (getDocs_st _ _) as [[q|?] ?]; [destruct (snapshot_empty q)|].
  - rewrite run_getProduct.
    by destruct (getDoc_st _ _) as [[d|?] ?]; [destruct (snap_data d)|].
  - rewrite run_updateProduct. by destruct (updateDoc_st _ _ _) as [[?|?] ?].
  - rewrite run_deleteProduct. by destruct (deleteDoc_st _ _) as [[?|?] ?].
Qed.

(** X3. The list never answers 200 with an empty array: a 200 from the list
    handler carries a JSON array with at least one element. *)
Theorem list_200_is_never_empty (req : Request) (res : ServerResponse)
    (w : world St) (s' : St) (r : Response) :
  run (getProducts req res) w = (Returned tt, World s' (sent w ++ [r])) →
  code r = 200 →
  ∃ x l, payload r = Json (JArr (x :: l)).
Proof.
  rewrite run_getProducts.
  destruct (getDocs_st _ _) as [[q|?] ?]; unfold respond, snapshot_empty.
  - destruct (docs q) as [|d ds] eqn:Hq; intros [= _ Hr] Hc;
      apply app_inj_tail in Hr as [_ <-]; simpl in *; [done|eauto].
  - intros [= _ Hr] Hc. apply app_inj_tail in Hr as [_ <-]. done.
Qed.

End ResponseShape.

(** ** Over every compliant store *)

Section Compositions.
Context {St : Type} `{!FirestoreClient St} `{!CompliantStore St}.

(** The ids of the documents a query visits are the collection's ids, each
    once. *)
Lemma snapshot_ids c s q s' :
  getDocs_st c s = (Returned q, s') →
  NoDup (doc_id <$> docs q) ∧
  ∀ i, i ∈ doc_id <$> docs q ↔ i ∈ dom (documents s (coll_path c)).
Proof.
  intros Hq. apply getDocs_resolves in Hq as [_ Hp].
  assert (Hids : doc_id <$> docs q ≡ₚ (map_to_list (documents s (coll_path c))).*1).
  { rewrite <- Hp, <- list_fmap_compose. done. }
  split.
  - rewrite Hids. apply NoDup_fst_map_to_list.
  - intros i. rewrite Hids, elem_of_dom. split.
    + intros Hi. apply list_elem_of_fmap in Hi as ([j d] & -> & Hjd).
      apply elem_of_map_to_list in Hjd. eauto.
    + intros [d Hd]. apply list_elem_of_fmap. exists (i, d).
      split; [done|]. by apply elem_of_map_to_list.
Qed.

(** X8. Create, then get-one with the id the store gave: the answer is 200
    and its JSON body is the created object, field for field. *)
Theorem create_then_get_one (P : DocumentData) (req req' : Request)
    (res res' : ServerResponse) (w : world St)
    (r : DocumentReference) (s1 : St) (snap : DocumentSnapshot) (s2 : St) :
  body req = JObj P →
  addDoc_st (collection db "products") (JObj P) (backend w) = (Returned r, s1) →
  params_id (params req') = ref_id r →
  getDoc_st (doc db "products" (ref_id r)) s1 = (Returned snap, s2) →
  let w1 := (run (createProduct req res) w).2 in
  run (getProduct req' res') w1 = respond w1 s2 200 (Json (JObj P)).
Proof.
  intros Hb Ha Hid Hg w1. subst w1.
  rewrite run_createProduct, Hb, Ha. simpl.
  rewrite run_getProduct, Hid. simpl. rewrite Hg.
  apply getDoc_resolves in Hg as (_ & _ & ->). simpl.
  destruct (addDoc_resolves _ _ _ _ _ Ha) as (_ & _ & Hdocs). simpl in Hdocs.
  by rewrite Hdocs, lookup_insert_eq.
Qed.

(** X9. Delete, then get-one for the same id: the answer is 404 "product
    not found", whether or not the document existed before the delete. *)
Theorem delete_then_get_one (req req' : Request) (res res' : ServerResponse)
    (w : world St) (s1 : St) (snap : DocumentSnapshot) (s2 : St) :
  let id := params_id (params req) in
  deleteDoc_st (doc db "products" id) (backend w) = (Returned tt, s1) →
  params_id (params req') = id →
  getDoc_st (doc db "products" id) s1 = (Returned snap, s2) →
  let w1 := (run (deleteProduct req res) w).2 in
  run (getProduct req' res') w1 = respond w1 s2 404 (Text "product not found").
Proof.
  intros id Hd Hid Hg w1. subst id w1.
  rewrite run_deleteProduct, Hd. simpl.
  rewrite run_getProduct, Hid. simpl. rewrite Hg.
  apply getDoc_resolves in Hg as (_ & _ & ->). simpl.
  pose proof (deleteDoc_resolves _ _ _ Hd) as Hdocs. simpl in Hdocs.
  by rewrite Hdocs, lookup_delete_eq.
Qed.

(** X13. In a 200 answer of the list, no id occurs twice, and the ids
    listed are exactly the ids stored in the products collection. *)
Theorem listed_ids_are_the_stored_ids (req : Request) (res : ServerResponse)
    (w : world St) (q : QuerySnapshot) (s' : St) :
  documents (backend w) "products" ≠ ∅ →
  getDocs_st (collection db "products") (backend w) = (Returned q, s') →
  ∃ arr : list Product,
    run (getProducts req res) w = respond w s' 200 (to_body arr) ∧
    NoDup (product_id <$> arr) ∧
    ∀ i, i ∈ product_id <$> arr ↔ i ∈ dom (documents (backend w) "products").
Proof.
  intros Hne Hq. exists (product_of <$> docs q).
  rewrite run_getProducts, Hq, (snapshot_of_nonempty _ _ _ _ Hq Hne).
  split; [done|].
  rewrite <- list_fmap_compose.
  apply (snapshot_ids _ _ _ _ Hq).
Qed.

End Compositions.

(** ** The further properties on the reference store *)

Module Scenarios.
Import MemStore Fixtures.

(** Listing a store that holds the Widget. *)
Lemma list_200_is_never_empty_witness :
  ∃ x l,
    payload {| code := 200;
               payload := to_body [product_of {| doc_id := "0"; doc_data := widget |}] |}
    = Json (JArr (x :: l)).
Proof.
  apply (list_200_is_never_empty (request "" JNull) res0
           (fresh_world widget_store)
           widget_store
           {| code := 200;
              payload := to_body [product_of {| doc_id := "0"; doc_data := widget |}] |});
    vm_compute; reflexivity.
Defined.

(** Creating the Widget in the empty store, then reading id "0". *)
Lemma create_then_get_one_witness :
  let w1 := (run (createProduct (request "" (JObj widget)) res0)
                 (fresh_world empty_store)).2 in
  run (getProduct (request "0" JNull) res0) w1
  = respond w1 widget_store 200 (Json (JObj widget)).
Proof.
  apply (create_then_get_one widget (request "" (JObj widget)) (request "0" JNull)
           res0 res0 (fresh_world empty_store) (products_ref "0")
           widget_store
           {| snap_id := "0"; snap_data := Some widget |}
           widget_store);
    vm_compute; reflexivity.
Defined.

(** Deleting the Widget, then reading it. *)
Lemma delete_then_get_one_witness :
  let w1 := (run (deleteProduct (request "0" JNull) res0)
                 (fresh_world widget_store)).2 in
  run (getProduct (request "0" JNull) res0) w1
  = respond w1 (store_of ∅) 404 (Text "product not found").
Proof.
  apply (delete_then_get_one (request "0" JNull) (request "0" JNull) res0 res0
           (fresh_world widget_store) (store_of ∅)
           {| snap_id := "0"; snap_data := None |} (store_of ∅));
    vm_compute; reflexivity.
Defined.

(** Listing the store with two products. *)
Lemma listed_ids_are_the_stored_ids_witness :
  ∃ arr : list Product,
    run (getProducts (request "" JNull) res0) (fresh_world (store_of two_products))
    = respond (fresh_world (store_of two_products)) (store_of two_products)
              200 (to_body arr) ∧
    NoDup (product_id <$> arr) ∧
    ∀ i, i ∈ product_id <$> arr
         ↔ i ∈ dom (documents (backend (fresh_world (store_of two_products))) "products").
Proof.
  apply (listed_ids_are_the_stored_ids (request "" JNull) res0
           (fresh_world (store_of two_products)) (snapshot_of two_products)
           (store_of two_products)).
  - vm_compute. intros [=].
  - vm_compute; reflexivity.
Defined.

End Scenarios.
